(** * 3D-kartan: the drawing tools of the map viewer

    A shallow embedding of the interactive measuring tools
    (measure-distance, measure-height) and of the profile registry of the
    terrain-section tool.  Every tool is a closure over a handful of
    mutable variables and the viewer's entity collection; here each
    closure is a record of its variables and each handler a function on
    that record.  JavaScript numbers are IEEE-754 doubles and are kept as
    primitive floats wherever the code computes with them. *)

From Stdlib Require Import Floats.
From stdpp Require Import base list strings pretty.

(** ** The parts of the toolkit the tools rely on *)

Module Cesium.

(** A world position: three doubles. *)
Record Cartesian3 : Type := mkCartesian3 { x : float; y : float; z : float }.

(** A geodetic position: longitude and latitude in radians, height in
    metres above the ellipsoid. *)
Record Cartographic : Type :=
  mkCartographic { longitude : float; latitude : float; height : float }.

Definition subtract (left right : Cartesian3) : Cartesian3 :=
  mkCartesian3 (x left - x right) (y left - y right) (z left - z right).

Definition magnitudeSquared (c : Cartesian3) : float :=
  (x c * x c + y c * y c + z c * z c)%float.

Definition magnitude (c : Cartesian3) : float :=
  PrimFloat.sqrt (magnitudeSquared c).

(** Modelled from the spec: [Cartesian3.distance] belongs to the
    third-party toolkit and is not part of the sources; the
    specification calls it the Euclidean (direct 3D) distance between
    two points, which on doubles is the magnitude of the difference. *)
Definition distance (left right : Cartesian3) : float :=
  magnitude (subtract left right).

(** Modelled from the spec: [Cartesian3.midpoint], likewise a toolkit
    helper, is the point half-way between its two arguments. *)
Definition midpoint (left right : Cartesian3) : Cartesian3 :=
  mkCartesian3 ((x left + x right) * 0.5)
               ((y left + y right) * 0.5)
               ((z left + z right) * 0.5).

Inductive Color : Type := YELLOW | RED | BLUE | GREEN.

(** Entities are JavaScript objects held by reference.  Every object a
    tool creates gets the next free slot of the tool's object table and
    is referred to by that slot. *)
Definition EntityId : Type := nat.

End Cesium.

(** ** tools/measure/measure-distance/index.js *)

Module MeasureDistance.
Import Cesium.
Local Open Scope string_scope.

(** The label texts the tool writes: the literal "0 m" and the template
    [`${length.toFixed(2)} m`], kept as the number it formats. *)
Inductive LabelText : Type :=
| ZeroMetres
| Metres (length : float).

(** What a polyline draws: the live [CallbackProperty(() => pts.slice())]
    of the preview, or a fixed array of positions. *)
Inductive Positions : Type :=
| DynamicLine
| FixedLine (positions : list Cartesian3).

Inductive Entity : Type :=
| PointEntity (position : Cartesian3)
| PolylineEntity (positions : Positions) (material : Color) (show : bool)
| LabelEntity (position : option Cartesian3) (text : LabelText) (font : string).

(** The closure of [initMeasureDistance].  [pts] is the array bound to
    the variable [pts]; [pts_minus1] is the property "-1" of that array
    object, which [pts[pts.length - 1] = pos] creates when the array is
    empty and which indexing an empty array with [pts.length - 1] reads.
    [objects] holds every entity object created so far, [entities] the
    ids that are members of [viewer.entities]. *)
Record State : Type := mkState {
  isDrawing : bool;
  handler : bool;
  keydownListener : bool;
  pts : list Cartesian3;
  pts_minus1 : option Cartesian3;
  floatPt : option EntityId;
  lineEnt : option EntityId;
  dynamicLabel : option EntityId;
  markerEntities : list EntityId;
  measuredLines : list EntityId;
  measuredLabels : list EntityId;
  measuredMarkers : list (list EntityId);
  objects : list Entity;
  entities : list EntityId;
  startIcon : string;
  resultText : string
}.

Definition set_isDrawing v s := mkState v (handler s) (keydownListener s) (pts s) (pts_minus1 s) (floatPt s) (lineEnt s) (dynamicLabel s) (markerEntities s) (measuredLines s) (measuredLabels s) (measuredMarkers s) (objects s) (entities s) (startIcon s) (resultText s).
Definition set_handler v s := mkState (isDrawing s) v (keydownListener s) (pts s) (pts_minus1 s) (floatPt s) (lineEnt s) (dynamicLabel s) (markerEntities s) (measuredLines s) (measuredLabels s) (measuredMarkers s) (objects s) (entities s) (startIcon s) (resultText s).
Definition set_keydownListener v s := mkState (isDrawing s) (handler s) v (pts s) (pts_minus1 s) (floatPt s) (lineEnt s) (dynamicLabel s) (markerEntities s) (measuredLines s) (measuredLabels s) (measuredMarkers s) (objects s) (entities s) (startIcon s) (resultText s).
Definition set_pts v s := mkState (isDrawing s) (handler s) (keydownListener s) v (pts_minus1 s) (floatPt s) (lineEnt s) (dynamicLabel s) (markerEntities s) (measuredLines s) (measuredLabels s) (measuredMarkers s) (objects s) (entities s) (startIcon s) (resultText s).
Definition set_pts_minus1 v s := mkState (isDrawing s) (handler s) (keydownListener s) (pts s) v (floatPt s) (lineEnt s) (dynamicLabel s) (markerEntities s) (measuredLines s) (measuredLabels s) (measuredMarkers s) (objects s) (entities s) (startIcon s) (resultText s).
Definition set_floatPt v s := mkState (isDrawing s) (handler s) (keydownListener s) (pts s) (pts_minus1 s) v (lineEnt s) (dynamicLabel s) (markerEntities s) (measuredLines s) (measuredLabels s) (measuredMarkers s) (objects s) (entities s) (startIcon s) (resultText s).
Definition set_lineEnt v s := mkState (isDrawing s) (handler s) (keydownListener s) (pts s) (pts_minus1 s) (floatPt s) v (dynamicLabel s) (markerEntities s) (measuredLines s) (measuredLabels s) (measuredMarkers s) (objects s) (entities s) (startIcon s) (resultText s).
Definition set_dynamicLabel v s := mkState (isDrawing s) (handler s) (keydownListener s) (pts s) (pts_minus1 s) (floatPt s) (lineEnt s) v (markerEntities s) (measuredLines s) (measuredLabels s) (measuredMarkers s) (objects s) (entities s) (startIcon s) (resultText s).
Definition set_markerEntities v s := mkState (isDrawing s) (handler s) (keydownListener s) (pts s) (pts_minus1 s) (floatPt s) (lineEnt s) (dynamicLabel s) v (measuredLines s) (measuredLabels s) (measuredMarkers s) (objects s) (entities s) (startIcon s) (resultText s).
Definition set_measuredLines v s := mkState (isDrawing s) (handler s) (keydownListener s) (pts s) (pts_minus1 s) (floatPt s) (lineEnt s) (dynamicLabel s) (markerEntities s) v (measuredLabels s) (measuredMarkers s) (objects s) (entities s) (startIcon s) (resultText s).
Definition set_measuredLabels v s := mkState (isDrawing s) (handler s) (keydownListener s) (pts s) (pts_minus1 s) (floatPt s) (lineEnt s) (dynamicLabel s) (markerEntities s) (measuredLines s) v (measuredMarkers s) (objects s) (entities s) (startIcon s) (resultText s).
Definition set_measuredMarkers v s := mkState (isDrawing s) (handler s) (keydownListener s) (pts s) (pts_minus1 s) (floatPt s) (lineEnt s) (dynamicLabel s) (markerEntities s) (measuredLines s) (measuredLabels s) v (objects s) (entities s) (startIcon s) (resultText s).
Definition set_objects v s := mkState (isDrawing s) (handler s) (keydownListener s) (pts s) (pts_minus1 s) (floatPt s) (lineEnt s) (dynamicLabel s) (markerEntities s) (measuredLines s) (measuredLabels s) (measuredMarkers s) v (entities s) (startIcon s) (resultText s).
Definition set_entities v s := mkState (isDrawing s) (handler s) (keydownListener s) (pts s) (pts_minus1 s) (floatPt s) (lineEnt s) (dynamicLabel s) (markerEntities s) (measuredLines s) (measuredLabels s) (measuredMarkers s) (objects s) v (startIcon s) (resultText s).
Definition set_startIcon v s := mkState (isDrawing s) (handler s) (keydownListener s) (pts s) (pts_minus1 s) (floatPt s) (lineEnt s) (dynamicLabel s) (markerEntities s) (measuredLines s) (measuredLabels s) (measuredMarkers s) (objects s) (entities s) v (resultText s).
Definition set_resultText v s := mkState (isDrawing s) (handler s) (keydownListener s) (pts s) (pts_minus1 s) (floatPt s) (lineEnt s) (dynamicLabel s) (markerEntities s) (measuredLines s) (measuredLabels s) (measuredMarkers s) (objects s) (entities s) (startIcon s) v.

(** *** The entity collection *)

(** [viewer.entities.add({...})]: a fresh object, made a member. *)
Definition entities_add (e : Entity) (s : State) : EntityId * State :=
  let id := length (objects s) in
  (id, set_entities (entities s ++ [id]) (set_objects (objects s ++ [e]) s)).

(** [viewer.entities.remove(e)]: drops the membership, keeps the object. *)
Definition entities_remove (id : EntityId) (s : State) : State :=
  set_entities (filter (λ i, i ≠ id) (entities s)) s.

(** [if (v) { viewer.entities.remove(v); ... }] for a nullable reference. *)
Definition remove_if_set (v : option EntityId) (s : State) : State :=
  match v with
  | Some id => entities_remove id s
  | None => s
  end.

(** [e.position.setValue(pos)] *)
Definition position_setValue (pos : option Cartesian3) (e : Entity) : Entity :=
  match e with
  | PointEntity p => match pos with Some q => PointEntity q | None => PointEntity p end
  | LabelEntity _ text font => LabelEntity pos text font
  | PolylineEntity ps m sh => PolylineEntity ps m sh
  end.

(** [e.label.text = text] *)
Definition label_setText (text : LabelText) (e : Entity) : Entity :=
  match e with
  | LabelEntity p _ font => LabelEntity p text font
  | other => other
  end.

(** [e.polyline.show = b] *)
Definition polyline_setShow (b : bool) (e : Entity) : Entity :=
  match e with
  | PolylineEntity ps m _ => PolylineEntity ps m b
  | other => other
  end.

Definition update_object (f : Entity → Entity) (id : EntityId) (s : State) : State :=
  set_objects (alter f id (objects s)) s.

(** *** The vertex buffer as a JavaScript array *)

(** [pts[pts.length - 1]] *)
Definition pts_last (s : State) : option Cartesian3 :=
  match pts s with
  | [] => pts_minus1 s
  | _ :: _ => last (pts s)
  end.

(** [pts[pts.length - 1] = pos] *)
Definition pts_set_last (pos : Cartesian3) (s : State) : State :=
  match pts s with
  | [] => set_pts_minus1 (Some pos) s
  | _ :: _ => set_pts (<[length (pts s) - 1 := pos]> (pts s)) s
  end.

(** [pts = []]: a fresh array object. *)
Definition pts_reset (s : State) : State :=
  set_pts_minus1 None (set_pts [] s).

(** *** Helpers of the tool *)

Definition createMarker (position : Cartesian3) (s : State) : EntityId * State :=
  let '(marker, s) := entities_add (PointEntity position) s in
  (marker, set_markerEntities (markerEntities s ++ [marker]) s).

(** The loop [for (let i = 1; i < positions.length; i++)
    sum += Cartesian3.distance(positions[i - 1], positions[i])].  Both
    indices are in range inside the loop, so the default is never
    read. *)
Definition computeLength (positions : list Cartesian3) : float :=
  let origin := mkCartesian3 0 0 0 in
  foldl (λ sum i, (sum + distance (nth (i - 1) positions origin)
                                   (nth i positions origin))%float)
        0%float
        (seq 1 (length positions - 1)).

Definition finalizeLine (s : State) : State :=
  let s := set_floatPt None (remove_if_set (floatPt s) s) in
  let s := set_lineEnt None (remove_if_set (lineEnt s) s) in
  let s := set_dynamicLabel None (remove_if_set (dynamicLabel s) s) in
  let '(line, s) := entities_add (PolylineEntity (FixedLine (pts s)) RED true) s in
  let s := set_measuredLines (measuredLines s ++ [line]) s in
  let s := set_measuredMarkers (measuredMarkers s ++ [markerEntities s]) s in
  let length := computeLength (pts s) in
  let last := pts_last s in
  let '(label, s) :=
    entities_add (LabelEntity last (Metres length) "bold 16px sans-serif") s in
  let s := set_measuredLabels (measuredLabels s ++ [label]) s in
  set_markerEntities [] (pts_reset s).

Definition stopDrawing (s : State) : State :=
  let s := set_isDrawing false s in
  let s := set_startIcon "var(--black-icon-edit)" s in
  let s := set_handler false s in
  let s := set_keydownListener false s in
  let s := set_dynamicLabel None (remove_if_set (dynamicLabel s) s) in
  let s := foldl (λ s m, entities_remove m s) s (markerEntities s) in
  let s := set_markerEntities [] s in
  pts_reset s.

Definition startDrawing (s : State) : State :=
  let s := set_isDrawing true s in
  let s := set_startIcon "var(--black-icon-edit-off)" s in
  let s := set_resultText
             "Klicka för att lägga punkter, dubbelklick för att färdigställa" s in
  let s := set_handler true s in
  let s := pts_reset s in
  let s := set_floatPt None s in
  let s := set_lineEnt None s in
  let s := set_markerEntities [] s in
  set_keydownListener true s.

Definition toggleDrawing (s : State) : State :=
  if isDrawing s then stopDrawing s else startDrawing s.

(** The LEFT_CLICK action; [pick] is what [viewer.scene.pickPosition]
    returns for the event's position, [None] standing for undefined. *)
Definition leftClick (pick : option Cartesian3) (s : State) : State :=
  match pick with
  | None => s
  | Some pos =>
    if decide (length (pts s) = 0) then
      let s := set_pts (pts s ++ [pos]) s in
      let s := set_pts (pts s ++ [pos]) s in
      let '(marker, s) := createMarker pos s in
      let s := set_floatPt (Some marker) s in
      let '(line, s) := entities_add (PolylineEntity DynamicLine YELLOW true) s in
      let s := set_lineEnt (Some line) s in
      let '(label, s) :=
        entities_add (LabelEntity (Some pos) ZeroMetres "bold 14px sans-serif") s in
      set_dynamicLabel (Some label) s
    else
      let s := pts_set_last pos s in
      let '(marker, s) := createMarker pos s in
      let s := set_floatPt (Some marker) s in
      set_pts (pts s ++ [pos]) s
  end.

(** The MOUSE_MOVE action; [pick] is the pick at [evt.endPosition]. *)
Definition mouseMove (pick : option Cartesian3) (s : State) : State :=
  match floatPt s with
  | None => s
  | Some fp =>
    match pick with
    | None => s
    | Some pos =>
      let s := update_object (position_setValue (Some pos)) fp s in
      let s := pts_set_last pos s in
      match dynamicLabel s with
      | Some lbl =>
        let length := computeLength (pts s) in
        let s := update_object (position_setValue (Some pos)) lbl s in
        update_object (label_setText (Metres length)) lbl s
      | None => s
      end
    end
  end.

(** The LEFT_DOUBLE_CLICK action. *)
Definition doubleClick (s : State) : State :=
  if decide (length (pts s) < 2) then s else finalizeLine s.

Definition escHandler (key : string) (s : State) : State :=
  if negb (String.eqb key "Escape") || negb (isDrawing s) then s
  else if decide (0 < length (pts s)) then
    let s := set_pts (removelast (pts s)) s in
    let lastMarker := last (markerEntities s) in
    let s := set_markerEntities (removelast (markerEntities s)) s in
    let s := remove_if_set lastMarker s in
    let s :=
      match dynamicLabel s with
      | Some lbl =>
        if decide (0 < length (pts s)) then
          let length := computeLength (pts s) in
          let s := update_object (position_setValue (pts_last s)) lbl s in
          update_object (label_setText (Metres length)) lbl s
        else update_object (label_setText ZeroMetres) lbl s
      | None => s
      end in
    match lineEnt s with
    | Some l =>
      if decide (length (pts s) < 2) then update_object (polyline_setShow false) l s
      else s
    | None => s
    end
  else s.

Definition clearAll (s : State) : State :=
  let s := foldl (λ s e, entities_remove e s) s (measuredLines s) in
  let s := foldl (λ s e, entities_remove e s) s (measuredLabels s) in
  let s := foldl (λ s markerList,
                    foldl (λ s m, entities_remove m s) s markerList)
                 s (measuredMarkers s) in
  let s := set_measuredLines [] s in
  let s := set_measuredLabels [] s in
  stopDrawing s.

(** *** The tool as a machine driven by browser events *)

Inductive Event : Type :=
| StartButton                               (* click on startBtn *)
| ClearButton                               (* click on clearBtn *)
| ApiStop                                   (* the parent calls stop() *)
| PanelStyle (displayBlock : bool)          (* the MutationObserver fires *)
| LeftClick (pick : option Cartesian3)
| MouseMove (pick : option Cartesian3)
| LeftDoubleClick
| KeyDown (key : string).

Definition step (e : Event) (s : State) : State :=
  match e with
  | StartButton => toggleDrawing s
  | ClearButton => clearAll s
  | ApiStop => stopDrawing s
  | PanelStyle displayBlock =>
    if negb displayBlock && isDrawing s then stopDrawing s else s
  | LeftClick pick => if handler s then leftClick pick s else s
  | MouseMove pick => if handler s then mouseMove pick s else s
  | LeftDoubleClick => if handler s then doubleClick s else s
  | KeyDown key => if keydownListener s then escHandler key s else s
  end.

Definition run (es : list Event) (s : State) : State :=
  foldl (λ s e, step e s) s es.

(** The state right after [initMeasureDistance] returns. *)
Definition init : State := {|
  isDrawing := false;
  handler := false;
  keydownListener := false;
  pts := [];
  pts_minus1 := None;
  floatPt := None;
  lineEnt := None;
  dynamicLabel := None;
  markerEntities := [];
  measuredLines := [];
  measuredLabels := [];
  measuredMarkers := [];
  objects := [];
  entities := [];
  startIcon := "var(--black-icon-edit)";
  resultText := "Klicka för att börja mäta"
|}.

Definition reachable (s : State) : Prop := ∃ es, s = run es init.

(** *** Reading a state *)

(** The committed vertices: everything in the buffer but the trailing
    floating point. *)
Definition committed (s : State) : list Cartesian3 := removelast (pts s).

(** The vertex list of a finalized polyline. *)
Definition fixed_positions (s : State) (id : EntityId) : option (list Cartesian3) :=
  match objects s !! id with
  | Some (PolylineEntity (FixedLine ps) _ _) => Some ps
  | _ => None
  end.

(** The vertex lists of all finalized polylines, oldest first. *)
Definition finalized_shapes (s : State) : list (option (list Cartesian3)) :=
  map (fixed_positions s) (measuredLines s).

(** Polyline length as the specification words it: the distances
    between consecutive vertices, added up from the first segment on. *)
Fixpoint consecutive_distances (positions : list Cartesian3) : list float :=
  match positions with
  | a :: (b :: _) as rest => distance a b :: consecutive_distances rest
  | _ => []
  end.

Definition polyline_length (positions : list Cartesian3) : float :=
  foldl PrimFloat.add 0%float (consecutive_distances positions).

(** The sequence of events of [ps] primary clicks, each resolving to a
    world position. *)
Definition clicks (ps : list Cartesian3) : list Event :=
  map (λ p, LeftClick (Some p)) ps.

(** What holds of every state the tool can be in: the input handler and
    the key listener exist exactly while drawing, a non-empty buffer has
    a floating marker, and outside drawing nothing is in progress. *)
Definition invariant (s : State) : Prop :=
  handler s = isDrawing s
  ∧ keydownListener s = isDrawing s
  ∧ (pts s ≠ [] → floatPt s ≠ None)
  ∧ (isDrawing s = false →
     dynamicLabel s = None ∧ markerEntities s = [] ∧ pts s = []
     ∧ pts_minus1 s = None ∧ startIcon s = "var(--black-icon-edit)").

(** What iteration [i] of the loop in [computeLength] adds. *)
Definition segment (positions : list Cartesian3) (i : nat) : float :=
  let origin := mkCartesian3 0 0 0 in
  distance (nth (i - 1) positions origin) (nth i positions origin).

End MeasureDistance.

(** ** tools/measure/measure-height/index.js *)

Module MeasureHeight.
Import Cesium.
Local Open Scope string_scope.

(** A position on the canvas. *)
Record Cartesian2 : Type := mkCartesian2 { px : float; py : float }.

(** What the scene answers to a pick at the moment of an event:
    [viewer.scene.pickPosition] and [viewer.camera.pickEllipsoid], each
    undefined ([None]) where nothing is hit. *)
Record Scene : Type := mkScene {
  pickPosition : Cartesian2 → option Cartesian3;
  pickEllipsoid : Cartesian2 → option Cartesian3
}.

(** The entities of the tool; of their styling only the line colour is
    kept.  A label's text is [`${value.toFixed(2)} m`], kept as the
    number it formats. *)
Inductive Entity : Type :=
| PointEntity (position : Cartesian3)
| PolylineEntity (positions : list Cartesian3) (material : Color)
| LabelEntity (position : Cartesian3) (metres : float).

(** The closure of [initMeasureHeight].  The variables [labelEnt] and
    [measuredMarkers] are declared in the source and never used. *)
Record State : Type := mkState {
  isDrawing : bool;
  handler : bool;
  pts : list Cartesian3;
  tempMarkerEnts : list EntityId;
  diagEnt : option EntityId;
  horizEnt : option EntityId;
  vertEnt : option EntityId;
  labelDiag : option EntityId;
  labelHoriz : option EntityId;
  labelVert : option EntityId;
  measuredLines : list EntityId;
  measuredLabels : list EntityId;
  objects : list Entity;
  entities : list EntityId;
  startIcon : string;
  resultText : string
}.

Definition set_isDrawing v s := mkState v (handler s) (pts s) (tempMarkerEnts s) (diagEnt s) (horizEnt s) (vertEnt s) (labelDiag s) (labelHoriz s) (labelVert s) (measuredLines s) (measuredLabels s) (objects s) (entities s) (startIcon s) (resultText s).
Definition set_handler v s := mkState (isDrawing s) v (pts s) (tempMarkerEnts s) (diagEnt s) (horizEnt s) (vertEnt s) (labelDiag s) (labelHoriz s) (labelVert s) (measuredLines s) (measuredLabels s) (objects s) (entities s) (startIcon s) (resultText s).
Definition set_pts v s := mkState (isDrawing s) (handler s) v (tempMarkerEnts s) (diagEnt s) (horizEnt s) (vertEnt s) (labelDiag s) (labelHoriz s) (labelVert s) (measuredLines s) (measuredLabels s) (objects s) (entities s) (startIcon s) (resultText s).
Definition set_tempMarkerEnts v s := mkState (isDrawing s) (handler s) (pts s) v (diagEnt s) (horizEnt s) (vertEnt s) (labelDiag s) (labelHoriz s) (labelVert s) (measuredLines s) (measuredLabels s) (objects s) (entities s) (startIcon s) (resultText s).
Definition set_lineEnts d h v s := mkState (isDrawing s) (handler s) (pts s) (tempMarkerEnts s) d h v (labelDiag s) (labelHoriz s) (labelVert s) (measuredLines s) (measuredLabels s) (objects s) (entities s) (startIcon s) (resultText s).
Definition set_labelEnts d h v s := mkState (isDrawing s) (handler s) (pts s) (tempMarkerEnts s) (diagEnt s) (horizEnt s) (vertEnt s) d h v (measuredLines s) (measuredLabels s) (objects s) (entities s) (startIcon s) (resultText s).
Definition set_measuredLines v s := mkState (isDrawing s) (handler s) (pts s) (tempMarkerEnts s) (diagEnt s) (horizEnt s) (vertEnt s) (labelDiag s) (labelHoriz s) (labelVert s) v (measuredLabels s) (objects s) (entities s) (startIcon s) (resultText s).
Definition set_measuredLabels v s := mkState (isDrawing s) (handler s) (pts s) (tempMarkerEnts s) (diagEnt s) (horizEnt s) (vertEnt s) (labelDiag s) (labelHoriz s) (labelVert s) (measuredLines s) v (objects s) (entities s) (startIcon s) (resultText s).
Definition set_objects v s := mkState (isDrawing s) (handler s) (pts s) (tempMarkerEnts s) (diagEnt s) (horizEnt s) (vertEnt s) (labelDiag s) (labelHoriz s) (labelVert s) (measuredLines s) (measuredLabels s) v (entities s) (startIcon s) (resultText s).
Definition set_entities v s := mkState (isDrawing s) (handler s) (pts s) (tempMarkerEnts s) (diagEnt s) (horizEnt s) (vertEnt s) (labelDiag s) (labelHoriz s) (labelVert s) (measuredLines s) (measuredLabels s) (objects s) v (startIcon s) (resultText s).
Definition set_startIcon v s := mkState (isDrawing s) (handler s) (pts s) (tempMarkerEnts s) (diagEnt s) (horizEnt s) (vertEnt s) (labelDiag s) (labelHoriz s) (labelVert s) (measuredLines s) (measuredLabels s) (objects s) (entities s) v (resultText s).
Definition set_resultText v s := mkState (isDrawing s) (handler s) (pts s) (tempMarkerEnts s) (diagEnt s) (horizEnt s) (vertEnt s) (labelDiag s) (labelHoriz s) (labelVert s) (measuredLines s) (measuredLabels s) (objects s) (entities s) (startIcon s) v.

(** [viewer.entities.add({...})] *)
Definition entities_add (e : Entity) (s : State) : EntityId * State :=
  let id := length (objects s) in
  (id, set_entities (entities s ++ [id]) (set_objects (objects s ++ [e]) s)).

(** [viewer.entities.remove(e)] *)
Definition entities_remove (id : EntityId) (s : State) : State :=
  set_entities (filter (λ i, i ≠ id) (entities s)) s.

(** [list.forEach(e => viewer.entities.remove(e))] *)
Definition remove_each (l : list EntityId) (s : State) : State :=
  foldl (λ s e, entities_remove e s) s l.

Definition pickWorldPosition (windowPos : option Cartesian2) (scene : Scene)
  : option Cartesian3 :=
  match windowPos with
  | None => None
  | Some w =>
    match pickPosition scene w with
    | Some pos => Some pos
    | None => pickEllipsoid scene w
    end
  end.

(** What [computeMetrics] returns. *)
Record Metrics : Type := mkMetrics {
  horizontal : float;
  heightDiff : float;
  diagonal : float;
  proj : Cartesian3
}.

Section Ellipsoid.

(** The two geodetic conversions of the toolkit, for the ellipsoid of
    the globe: [Cartographic.fromCartesian(p, ellipsoid)] and
    [Cartesian3.fromRadians(longitude, latitude, height, ellipsoid)].
    The first is undefined only at the centre of the ellipsoid, a
    position no pick returns, and is taken as total. *)
Variable fromCartesian : Cartesian3 → Cartographic.
Variable fromRadians : float → float → float → Cartesian3.

Definition computeMetrics (p1 p2 : Cartesian3) : Metrics :=
  let c1 := fromCartesian p1 in
  let c2 := fromCartesian p2 in
  let heightDiff := abs (height c2 - height c1) in
  let proj := fromRadians (longitude c2) (latitude c2) (height c1) in
  let horizontal := distance p1 proj in
  let diagonal := distance p1 p2 in
  mkMetrics horizontal heightDiff diagonal proj.

(** [finalizeHeight] reads [const [p1, p2] = pts].  With fewer than two
    points the second is undefined and [computeMetrics] throws: the
    call ends there, after the temporary markers are gone. *)
Definition finalizeHeight (s : State) : State :=
  let s := remove_each (tempMarkerEnts s) s in
  let s := set_tempMarkerEnts [] s in
  match pts s with
  | p1 :: p2 :: _ =>
    let m := computeMetrics p1 p2 in
    let '(diag, s) := entities_add (PolylineEntity [p1; p2] RED) s in
    let '(horiz, s) := entities_add (PolylineEntity [p1; proj m] BLUE) s in
    let '(vert, s) := entities_add (PolylineEntity [proj m; p2] GREEN) s in
    let s := set_lineEnts (Some diag) (Some horiz) (Some vert) s in
    let midDiag := midpoint p1 p2 in
    let midHoriz := midpoint p1 (proj m) in
    let midVert := midpoint (proj m) p2 in
    let '(lDiag, s) := entities_add (LabelEntity midDiag (diagonal m)) s in
    let '(lHoriz, s) := entities_add (LabelEntity midHoriz (horizontal m)) s in
    let '(lVert, s) := entities_add (LabelEntity midVert (heightDiff m)) s in
    let s := set_labelEnts (Some lDiag) (Some lHoriz) (Some lVert) s in
    let s := set_measuredLines (measuredLines s ++ [diag; horiz; vert]) s in
    let s := set_measuredLabels (measuredLabels s ++ [lDiag; lHoriz; lVert]) s in
    set_pts [] s
  | _ => s
  end.

Definition startDrawing (s : State) : State :=
  let s := set_isDrawing true s in
  let s := set_startIcon "var(--black-icon-edit-off)" s in
  let s := set_resultText
             "Klicka en gång för startpunkt och en gång för slutpunkt" s in
  let s := set_handler true s in
  let s := set_pts [] s in
  set_tempMarkerEnts [] s.

(** The LEFT_CLICK action, for a click at [position] on the canvas. *)
Definition leftClick (position : Cartesian2) (scene : Scene) (s : State)
  : State :=
  match pickWorldPosition (Some position) scene with
  | None => s
  | Some pos =>
    let s := set_pts (pts s ++ [pos]) s in
    let '(m, s) := entities_add (PointEntity pos) s in
    let s := set_tempMarkerEnts (tempMarkerEnts s ++ [m]) s in
    if decide (length (pts s) = 2) then finalizeHeight s else s
  end.

Definition stopDrawing (s : State) : State :=
  let s := set_isDrawing false s in
  let s := set_startIcon "var(--black-icon-edit)" s in
  let s := set_handler false s in
  let s := remove_each (tempMarkerEnts s) s in
  let s := set_tempMarkerEnts [] s in
  set_pts [] s.

Definition clearAll (s : State) : State :=
  let s := stopDrawing s in
  let s := remove_each (measuredLines s) s in
  let s := set_measuredLines [] s in
  let s := remove_each (measuredLabels s) s in
  set_measuredLabels [] s.

Inductive Event : Type :=
| StartButton
| ClearButton
| ApiStop
| PanelStyle (displayBlock : bool)
| LeftClick (position : Cartesian2) (scene : Scene).

Definition step (e : Event) (s : State) : State :=
  match e with
  | StartButton => if isDrawing s then stopDrawing s else startDrawing s
  | ClearButton => clearAll s
  | ApiStop => stopDrawing s
  | PanelStyle displayBlock =>
    if negb displayBlock && isDrawing s then stopDrawing s else s
  | LeftClick position scene =>
    if handler s then leftClick position scene s else s
  end.

Definition run (es : list Event) (s : State) : State :=
  foldl (λ s e, step e s) s es.

(** The state right after [initMeasureHeight] returns. *)
Definition init : State := {|
  isDrawing := false;
  handler := false;
  pts := [];
  tempMarkerEnts := [];
  diagEnt := None;
  horizEnt := None;
  vertEnt := None;
  labelDiag := None;
  labelHoriz := None;
  labelVert := None;
  measuredLines := [];
  measuredLabels := [];
  objects := [];
  entities := [];
  startIcon := "var(--black-icon-edit)";
  resultText := "Klicka för att börja mäta"
|}.

Definition reachable (s : State) : Prop := ∃ es, s = run es init.

(** The positions of a polyline entity. *)
Definition line_positions (s : State) (id : EntityId)
  : option (list Cartesian3) :=
  match objects s !! id with
  | Some (PolylineEntity ps _) => Some ps
  | _ => None
  end.

(** The number a label entity shows. *)
Definition label_metres (s : State) (id : EntityId) : option float :=
  match objects s !! id with
  | Some (LabelEntity _ m) => Some m
  | _ => None
  end.

(** The two-point measurement as the specification words it. *)
Definition vertical_delta (p1 p2 : Cartesian3) : float :=
  abs (height (fromCartesian p2) - height (fromCartesian p1)).

Definition project_onto_height_of (p1 p2 : Cartesian3) : Cartesian3 :=
  fromRadians (longitude (fromCartesian p2)) (latitude (fromCartesian p2))
              (height (fromCartesian p1)).

End Ellipsoid.

(** What holds of every state the tool can be in: between two events the
    buffer holds at most one point, and the input handler exists exactly
    while drawing. *)
Definition invariant (s : State) : Prop :=
  (length (pts s) ≤ 1)%nat ∧ handler s = isDrawing s.

(** A stand-in for the two conversions, used to run the tool on concrete
    events: longitude, latitude and height read straight off the three
    coordinates. *)
Definition planar_fromCartesian (p : Cartesian3) : Cartographic :=
  mkCartographic (x p) (y p) (z p).

Definition planar_fromRadians (lon lat h : float) : Cartesian3 :=
  mkCartesian3 lon lat h.

(** A scene in which every pick on the canvas hits [pos]. *)
Definition scene_hitting (pos : Cartesian3) : Scene :=
  mkScene (λ _, Some pos) (λ _, None).

End MeasureHeight.

(** ** tools/terrain-section/index.js: the registry of terrain profiles *)

Module TerrainSection.
Import Cesium.
Local Open Scope string_scope.

(** The model starts where [sampleTerrainMostDetailed] has resolved: the
    picking of the two end points and the construction of the sample
    positions come before it, the rendering of the chart and the CSV
    export read a profile without touching the registry; they are left
    out, and with them the fields [swerefPoints], [canvas],
    [chartInstance], [distances3D], [distancesPlan] and [heightValues] of
    a profile. *)
Record Profile : Type := mkProfile {
  id : string;
  cartesianPositions : list Cartesian3;
  heights : list float;
  polylineEntity : EntityId
}.

(** A [<canvas>] of the graph container: its element id and its
    [style.display]. *)
Record Canvas : Type := mkCanvas { canvas_id : string; display : string }.

Inductive Entity : Type :=
| PointEntity (position : Cartesian3)
| PolylineEntity (positions : list Cartesian3)
| LabelEntity (position : Cartesian3) (text : string).

(** The closure of [initTerrainSection], as far as the registry goes.
    [graphOptions] and [deleteOptions] are the values of the options of
    the two dropdowns; [controlsDisabled] is the [disabled] flag of the
    two dropdowns, the delete button and the export button, which the code
    always sets together. *)
Record State : Type := mkState {
  profileCounter : N;
  profiles : list Profile;
  activeProfileId : option string;
  graphOptions : list string;
  deleteOptions : list string;
  controlsDisabled : bool;
  canvases : list Canvas;
  tempEntities : list EntityId;
  objects : list Entity;
  entities : list EntityId
}.

Definition set_profileCounter v s := mkState v (profiles s) (activeProfileId s) (graphOptions s) (deleteOptions s) (controlsDisabled s) (canvases s) (tempEntities s) (objects s) (entities s).
Definition set_profiles v s := mkState (profileCounter s) v (activeProfileId s) (graphOptions s) (deleteOptions s) (controlsDisabled s) (canvases s) (tempEntities s) (objects s) (entities s).
Definition set_activeProfileId v s := mkState (profileCounter s) (profiles s) v (graphOptions s) (deleteOptions s) (controlsDisabled s) (canvases s) (tempEntities s) (objects s) (entities s).
Definition set_graphOptions v s := mkState (profileCounter s) (profiles s) (activeProfileId s) v (deleteOptions s) (controlsDisabled s) (canvases s) (tempEntities s) (objects s) (entities s).
Definition set_deleteOptions v s := mkState (profileCounter s) (profiles s) (activeProfileId s) (graphOptions s) v (controlsDisabled s) (canvases s) (tempEntities s) (objects s) (entities s).
Definition set_controlsDisabled v s := mkState (profileCounter s) (profiles s) (activeProfileId s) (graphOptions s) (deleteOptions s) v (canvases s) (tempEntities s) (objects s) (entities s).
Definition set_canvases v s := mkState (profileCounter s) (profiles s) (activeProfileId s) (graphOptions s) (deleteOptions s) (controlsDisabled s) v (tempEntities s) (objects s) (entities s).
Definition set_tempEntities v s := mkState (profileCounter s) (profiles s) (activeProfileId s) (graphOptions s) (deleteOptions s) (controlsDisabled s) (canvases s) v (objects s) (entities s).
Definition set_objects v s := mkState (profileCounter s) (profiles s) (activeProfileId s) (graphOptions s) (deleteOptions s) (controlsDisabled s) (canvases s) (tempEntities s) v (entities s).
Definition set_entities v s := mkState (profileCounter s) (profiles s) (activeProfileId s) (graphOptions s) (deleteOptions s) (controlsDisabled s) (canvases s) (tempEntities s) (objects s) v.

(** [viewer.entities.add({...})] *)
Definition entities_add (e : Entity) (s : State) : EntityId * State :=
  let n := length (objects s) in
  (n, set_entities (entities s ++ [n]) (set_objects (objects s ++ [e]) s)).

(** [viewer.entities.remove(e)] *)
Definition entities_remove (e : EntityId) (s : State) : State :=
  set_entities (filter (λ i, i ≠ e) (entities s)) s.

(** [profileCounter++] on a double: exact while the value is below 2^53,
    where adding one no longer changes it. *)
Definition increment (n : N) : N :=
  if decide (n < 2 ^ 53)%N then (n + 1)%N else n.

(** ["G" + profileCounter]: the counter is an integer below 1e21, which
    JavaScript writes in plain decimal digits. *)
Definition createNewProfileId (s : State) : string * State :=
  let s := set_profileCounter (increment (profileCounter s)) s in
  ("G" +:+ pretty (profileCounter s), s).

Definition addProfileToDropdowns (id : string) (s : State) : State :=
  let s := set_graphOptions (graphOptions s ++ [id]) s in
  let s := set_deleteOptions (deleteOptions s ++ [id]) s in
  set_controlsDisabled false s.

Definition removeProfileFromDropdowns (id : string) (s : State) : State :=
  let s := set_graphOptions (filter (λ o, o ≠ id) (graphOptions s)) s in
  let s := set_deleteOptions (filter (λ o, o ≠ id) (deleteOptions s)) s in
  if decide (length (graphOptions s) = 0) then set_controlsDisabled true s
  else s.

Definition createProfileCanvas (id : string) (s : State) : State :=
  set_canvases (canvases s ++ [mkCanvas ("canvas-" +:+ id) "none"]) s.

(** [const c = document.getElementById(cid); if (c) c.style.display = d]:
    the first element with that id. *)
Fixpoint set_display (cid d : string) (cs : list Canvas) : list Canvas :=
  match cs with
  | [] => []
  | c :: cs =>
    if decide (canvas_id c = cid) then mkCanvas (canvas_id c) d :: cs
    else c :: set_display cid d cs
  end.

(** [const c = document.getElementById(cid); if (c) c.remove()] *)
Fixpoint remove_canvas (cid : string) (cs : list Canvas) : list Canvas :=
  match cs with
  | [] => []
  | c :: cs =>
    if decide (canvas_id c = cid) then cs else c :: remove_canvas cid cs
  end.

(** [drawElevationChart], which [setActiveProfile] calls last for the
    profile it finds, is not modelled. *)
Definition setActiveProfile (id : string) (s : State) : State :=
  let s := set_activeProfileId (Some id) s in
  let hidden :=
    foldl (λ cs p, set_display ("canvas-" +:+ TerrainSection.id p) "none" cs)
          (canvases s) (profiles s) in
  set_canvases (set_display ("canvas-" +:+ id) "block" hidden) s.

(** The change handler of the graph dropdown; [value] is what
    [graphSelect.value] reads. *)
Definition graphSelectChange (value : string) (s : State) : State :=
  if decide (value = "") then s else setActiveProfile value s.

(** [e.label && e.label.text && e.label.text.getValue() === id] *)
Definition is_label_with (objs : list Entity) (text : string) (e : EntityId)
  : bool :=
  match objs !! e with
  | Some (LabelEntity _ t) => bool_decide (t = text)
  | _ => false
  end.

(** The click handler of the delete button; [value] is what
    [deleteSelect.value] reads. *)
Definition deleteClick (value : string) (s : State) : State :=
  if decide (value = "") then s
  else
    match list_find (λ p, id p = value) (profiles s) with
    | None => s
    | Some (index, profile) =>
      let s := set_canvases (remove_canvas ("canvas-" +:+ value) (canvases s)) s in
      let s := entities_remove (polylineEntity profile) s in
      let s :=
        set_entities
          (filter (λ e, is_label_with (objects s) value e = false) (entities s))
          s in
      let s := set_profiles (delete index (profiles s)) s in
      let s := removeProfileFromDropdowns value s in
      match profiles s with
      | first :: _ => setActiveProfile (id first) s
      | [] => set_activeProfileId None s
      end
    end.

Definition clearTempEntities (s : State) : State :=
  let s := foldl (λ s e, entities_remove e s) s (tempEntities s) in
  set_tempEntities [] s.

(** How a call ends: it returns, or an exception leaves it half-way. *)
Inductive Completion : Type :=
| Returned (s : State)
| Threw (s : State).

Section Ellipsoid.

(** The geodetic conversions of the toolkit on the WGS84 ellipsoid:
    [Cartesian3.fromRadians(longitude, latitude, height)] and
    [Ellipsoid.WGS84.cartesianToCartographic(p)], the second taken as
    total on defined positions. *)
Variable fromRadians : float → float → float → Cartesian3.
Variable cartesianToCartographic : Cartesian3 → Cartographic.

(** [generateTerrainProfile] from the point where the sampled positions
    [updated] are there.  With no sample at all [cartesianPositions[0]] is
    undefined and [cartesianToCartographic] throws, after the polyline is
    added and the id is drawn. *)
Definition generateTerrainProfile (updated : list Cartographic) (s : State)
  : Completion :=
  let cartesianPositions :=
    map (λ carto, fromRadians (longitude carto) (latitude carto) (height carto))
        updated in
  let heights := map height updated in
  let s :=
    foldl (λ s pos,
             let '(e, s) := entities_add (PointEntity pos) s in
             set_tempEntities (tempEntities s ++ [e]) s)
          s cartesianPositions in
  let '(polylineEntity, s) := entities_add (PolylineEntity cartesianPositions) s in
  let '(id, s) := createNewProfileId s in
  match cartesianPositions with
  | [] => Threw s
  | first :: _ =>
    let firstCarto := cartesianToCartographic first in
    let elevatedPos :=
      fromRadians (longitude firstCarto) (latitude firstCarto)
                  (height firstCarto + 10)%float in
    let '(_, s) := entities_add (LabelEntity elevatedPos id) s in
    let s := addProfileToDropdowns id s in
    let s := createProfileCanvas id s in
    let s :=
      set_profiles
        (profiles s ++ [mkProfile id cartesianPositions heights polylineEntity])
        s in
    Returned (setActiveProfile id s)
  end.

Inductive Event : Type :=
| TerrainSampled (updated : list Cartographic)
| DeleteClick (value : string)
| GraphSelectChange (value : string).

(** [TerrainSampled]: the rest of the click action that awaited
    [generateTerrainProfile]; its last statement, [clearTempEntities()],
    runs only when the call returned. *)
Definition step (e : Event) (s : State) : State :=
  match e with
  | TerrainSampled updated =>
    match generateTerrainProfile updated s with
    | Returned s => clearTempEntities s
    | Threw s => s
    end
  | DeleteClick value => deleteClick value s
  | GraphSelectChange value => graphSelectChange value s
  end.

Definition run (es : list Event) (s : State) : State :=
  foldl (λ s e, step e s) s es.

(** The state right after [initTerrainSection] returns. *)
Definition init : State := {|
  profileCounter := 0;
  profiles := [];
  activeProfileId := None;
  graphOptions := [];
  deleteOptions := [];
  controlsDisabled := true;
  canvases := [];
  tempEntities := [];
  objects := [];
  entities := []
|}.

Definition reachable (s : State) : Prop := ∃ es, s = run es init.

(** The ids given to the profiles registered while [es] are handled from
    [s], oldest first: an event registers a profile when it makes
    [profiles] longer, and the profile it registers is the last one. *)
Fixpoint created (es : list Event) (s : State) : list string :=
  match es with
  | [] => []
  | e :: es =>
    let s' := step e s in
    (if decide (length (profiles s) < length (profiles s'))
     then from_option (λ p, [id p]) [] (last (profiles s'))
     else [])
    ++ created es s'
  end.

End Ellipsoid.

(** An event of a run of creations and deletions: a generation comes
    with at least one sampled position. *)
Definition samples_present (e : Event) : Prop :=
  match e with
  | TerrainSampled updated => updated ≠ []
  | _ => True
  end.

(** The id the specification gives the [n]-th profile. *)
Definition nth_profile_id (n : nat) : string := "G" +:+ pretty n.

(** What holds of the registry in every state: the two dropdowns list the
    ids of the registered profiles, in order, and the controls are
    disabled exactly when there is none. *)
Definition invariant (s : State) : Prop :=
  graphOptions s = map id (profiles s)
  ∧ deleteOptions s = map id (profiles s)
  ∧ (controlsDisabled s = true ↔ profiles s = []).

(** Stand-ins for the two conversions, used to run the registry on
    concrete events. *)
Definition planar_fromRadians (lon lat h : float) : Cartesian3 :=
  mkCartesian3 lon lat h.

Definition planar_cartesianToCartographic (p : Cartesian3) : Cartographic :=
  mkCartographic (x p) (y p) (z p).

End TerrainSection.

(** * Properties of the measure-distance tool *)

Module MeasureDistanceFacts.
Import Cesium MeasureDistance.

(** Evaluating the handlers call-by-value keeps the record terms small:
    every setter meets a record whose fields are already reduced. *)
Ltac unfold_ops :=
  cbv beta iota zeta delta
    [finalizeLine createMarker entities_add entities_remove remove_if_set
     update_object pts_reset pts_set_last pts_last
     set_isDrawing set_handler set_keydownListener set_pts set_pts_minus1
     set_floatPt set_lineEnt set_dynamicLabel set_markerEntities
     set_measuredLines set_measuredLabels set_measuredMarkers set_objects
     set_entities set_startIcon set_resultText
     isDrawing handler keydownListener pts pts_minus1 floatPt lineEnt
     dynamicLabel markerEntities measuredLines measuredLabels
     measuredMarkers objects entities startIcon resultText].

(** ** Polyline length *)

Section Length.

Lemma foldl_indexed (g : nat → float) (idx : list nat) (acc : float) :
  foldl (λ sum i, (sum + g i)%float) acc idx
  = foldl PrimFloat.add acc (map g idx).
Proof.
  revert acc. induction idx as [|i idx IH]; intros acc; simpl; [done|].
  apply IH.
Qed.

Lemma segment_shift (a : Cartesian3) (positions : list Cartesian3) (i : nat) :
  1 ≤ i → segment (a :: positions) (S i) = segment positions i.
Proof.
  intros Hi. unfold segment. destruct i as [|i]; [lia|]. simpl.
  by rewrite Nat.sub_0_r.
Qed.

Lemma segments_consecutive (positions : list Cartesian3) :
  map (segment positions) (seq 1 (length positions - 1))
  = consecutive_distances positions.
Proof.
  induction positions as [|a [|b rest] IH]; [done..|].
  replace (length (a :: b :: rest) - 1) with (S (length (b :: rest) - 1))
    by (simpl; lia).
  rewrite <- cons_seq, <- seq_shift. cbn [map]. rewrite map_map.
  change (consecutive_distances (a :: b :: rest))
    with (distance a b :: consecutive_distances (b :: rest)).
  f_equal.
  rewrite <- IH. apply map_ext_in. intros i Hi.
  apply in_seq in Hi. apply segment_shift. lia.
Qed.

Lemma computeLength_polyline_length (positions : list Cartesian3) :
  computeLength positions = polyline_length positions.
Proof.
  unfold computeLength, polyline_length.
  rewrite <- segments_consecutive.
  apply (foldl_indexed (segment positions)).
Qed.

End Length.

(** C7.  The length the tool computes for a list of positions is the sum
    of the Euclidean distances between consecutive vertices, and for
    (0,0,0), (3,0,0), (3,4,0) it is 7. *)
Theorem computeLength_is_sum_of_segments :
  (∀ positions, computeLength positions = polyline_length positions)
  ∧ computeLength [mkCartesian3 0 0 0; mkCartesian3 3 0 0; mkCartesian3 3 4 0]
    = 7%float.
Proof.
  split; [apply computeLength_polyline_length | reflexivity].
Qed.


(** ** Frame lemmas *)

Ltac destruct_state s :=
  destruct s as [drawing hdl keyl buf m1 fp ln lbl mks mlines mlabels mmarkers
                 objs ents icon txt].

Lemma remove_all (l : list EntityId) (s : State) :
  foldl (λ s m, entities_remove m s) s l
  = set_entities (foldl (λ es m, filter (λ i, i ≠ m) es) (entities s) l) s.
Proof.
  revert s. induction l as [|m l IH]; intros s; simpl.
  - by destruct s.
  - rewrite IH. reflexivity.
Qed.

Lemma stopDrawing_fields (s : State) :
  isDrawing (stopDrawing s) = false
  ∧ handler (stopDrawing s) = false
  ∧ keydownListener (stopDrawing s) = false
  ∧ dynamicLabel (stopDrawing s) = None
  ∧ markerEntities (stopDrawing s) = []
  ∧ pts (stopDrawing s) = []
  ∧ pts_minus1 (stopDrawing s) = None
  ∧ startIcon (stopDrawing s) = "var(--black-icon-edit)"%string.
Proof.
  unfold stopDrawing. rewrite remove_all. destruct_state s.
  unfold_ops. by destruct lbl.
Qed.

Lemma leftClick_frame (pick : option Cartesian3) (s : State) :
  isDrawing (leftClick pick s) = isDrawing s
  ∧ handler (leftClick pick s) = handler s
  ∧ keydownListener (leftClick pick s) = keydownListener s.
Proof.
  unfold leftClick. destruct pick as [pos|]; [|done].
  case_decide; destruct_state s; unfold_ops; [done|]. by destruct buf.
Qed.

Lemma mouseMove_frame (pick : option Cartesian3) (s : State) :
  isDrawing (mouseMove pick s) = isDrawing s
  ∧ handler (mouseMove pick s) = handler s
  ∧ keydownListener (mouseMove pick s) = keydownListener s
  ∧ floatPt (mouseMove pick s) = floatPt s
  ∧ length (pts (mouseMove pick s)) = length (pts s).
Proof.
  unfold mouseMove. destruct_state s. unfold_ops.
  destruct fp as [fp|]; [|done]. destruct pick as [pos|]; [|done].
  destruct buf as [|p buf], lbl; repeat split; by rewrite ?length_insert.
Qed.

Lemma doubleClick_frame (s : State) :
  isDrawing (doubleClick s) = isDrawing s
  ∧ handler (doubleClick s) = handler s
  ∧ keydownListener (doubleClick s) = keydownListener s.
Proof.
  unfold doubleClick. case_decide; [done|].
  destruct_state s. unfold_ops. by destruct fp, ln, lbl.
Qed.

Lemma escHandler_frame (key : string) (s : State) :
  isDrawing (escHandler key s) = isDrawing s
  ∧ handler (escHandler key s) = handler s
  ∧ keydownListener (escHandler key s) = keydownListener s
  ∧ floatPt (escHandler key s) = floatPt s
  ∧ (pts (escHandler key s) = pts s
     ∨ pts (escHandler key s) = removelast (pts s)).
Proof.
  unfold escHandler.
  destruct (negb (key =? "Escape")%string || negb (isDrawing s)); [naive_solver|].
  case_decide; [|naive_solver].
  destruct_state s. unfold_ops.
  destruct (last mks), lbl, ln; repeat case_decide; naive_solver.
Qed.

(** ** The invariant of reachable states *)

Lemma run_snoc (es : list Event) (e : Event) (s : State) :
  run (es ++ [e]) s = step e (run es s).
Proof. unfold run. by rewrite foldl_app. Qed.

Lemma run_cons (e : Event) (es : list Event) (s : State) :
  run (e :: es) s = run es (step e s).
Proof. reflexivity. Qed.

Lemma run_app (es1 es2 : list Event) (s : State) :
  run (es1 ++ es2) s = run es2 (run es1 s).
Proof. unfold run. by rewrite foldl_app. Qed.

Lemma step_LeftClick (pick : option Cartesian3) (s : State) :
  handler s = true → step (LeftClick pick) s = leftClick pick s.
Proof. intros Hon. unfold step. by rewrite Hon. Qed.

Lemma step_MouseMove (pick : option Cartesian3) (s : State) :
  handler s = true → step (MouseMove pick) s = mouseMove pick s.
Proof. intros Hon. unfold step. by rewrite Hon. Qed.

Lemma step_LeftDoubleClick (s : State) :
  handler s = true → step LeftDoubleClick s = doubleClick s.
Proof. intros Hon. unfold step. by rewrite Hon. Qed.

Lemma stopDrawing_invariant (s : State) : invariant (stopDrawing s).
Proof.
  destruct (stopDrawing_fields s) as (Hd & Hh & Hk & Hl & Hm & Hp & Hn & Hi).
  unfold invariant. rewrite Hd, Hh, Hk, Hl, Hm, Hp, Hn, Hi. naive_solver.
Qed.

Lemma startDrawing_invariant (s : State) : invariant (startDrawing s).
Proof. unfold invariant. simpl. naive_solver. Qed.

Lemma leftClick_floatPt (pos : Cartesian3) (s : State) :
  floatPt (leftClick (Some pos) s) ≠ None.
Proof.
  unfold leftClick. case_decide; destruct_state s; unfold_ops; [done|].
  by destruct buf.
Qed.

Lemma finalizeLine_result (s : State) :
  measuredLines (finalizeLine s) = measuredLines s ++ [length (objects s)]
  ∧ objects (finalizeLine s)
    = objects s ++ [PolylineEntity (FixedLine (pts s)) RED true;
                    LabelEntity (pts_last s) (Metres (computeLength (pts s)))
                                "bold 16px sans-serif"]
  ∧ pts (finalizeLine s) = [].
Proof.
  destruct_state s. unfold_ops.
  destruct fp, ln, lbl; by rewrite <- app_assoc.
Qed.

Lemma doubleClick_cases (s : State) :
  (length (pts s) < 2 ∧ doubleClick s = s)
  ∨ (2 ≤ length (pts s) ∧ doubleClick s = finalizeLine s).
Proof. unfold doubleClick. case_decide; [left | right]; split; auto; lia. Qed.

Lemma removelast_nonempty {A} (l : list A) : removelast l ≠ [] → l ≠ [].
Proof. by destruct l. Qed.

Lemma drawing_step_invariant (s s' : State) :
  invariant s →
  isDrawing s = true →
  isDrawing s' = isDrawing s →
  handler s' = handler s →
  keydownListener s' = keydownListener s →
  (pts s' ≠ [] → floatPt s' ≠ None) →
  invariant s'.
Proof.
  intros (Hh & Hk & _ & _) Hon Hd' Hh' Hk' Hf'. unfold invariant.
  rewrite Hd', Hh', Hk', Hon. split_and!; [congruence..|done|done].
Qed.

Lemma step_invariant (e : Event) (s : State) :
  invariant s → invariant (step e s).
Proof.
  intros Hinv. pose proof Hinv as (Hh & Hk & Hf & Hidle).
  destruct e as [| | |displayBlock|pick|pick| |key]; simpl.
  - unfold toggleDrawing.
    destruct (isDrawing s); auto using stopDrawing_invariant, startDrawing_invariant.
  - apply stopDrawing_invariant.
  - apply stopDrawing_invariant.
  - destruct (negb displayBlock && isDrawing s);
      [apply stopDrawing_invariant | exact Hinv].
  - destruct (handler s) eqn:Hon; [|exact Hinv].
    destruct (leftClick_frame pick s) as (Hd' & Hh' & Hk').
    apply (drawing_step_invariant s); [done|congruence..|].
    destruct pick; [intros _; apply leftClick_floatPt | exact Hf].
  - destruct (handler s) eqn:Hon; [|exact Hinv].
    destruct (mouseMove_frame pick s) as (Hd' & Hh' & Hk' & Hf' & Hlen).
    apply (drawing_step_invariant s); [done|congruence..|].
    rewrite Hf'. intros Hne. apply Hf. intros Hnil. rewrite Hnil in Hlen.
    by destruct (pts (mouseMove pick s)).
  - destruct (handler s) eqn:Hon; [|exact Hinv].
    destruct (doubleClick_frame s) as (Hd' & Hh' & Hk').
    apply (drawing_step_invariant s); [done|congruence..|].
    destruct (doubleClick_cases s) as [[_ ->]|[_ ->]]; [done|].
    by destruct (finalizeLine_result s) as (_ & _ & ->).
  - destruct (keydownListener s) eqn:Hon; [|exact Hinv].
    destruct (escHandler_frame key s) as (Hd' & Hh' & Hk' & Hf' & Hpts).
    apply (drawing_step_invariant s); [done|congruence..|].
    rewrite Hf'. destruct Hpts as [-> | ->]; [done|].
    intros Hne. by apply Hf, removelast_nonempty.
Qed.

Lemma init_invariant : invariant init.
Proof. by repeat split. Qed.

Lemma reachable_invariant (s : State) : reachable s → invariant s.
Proof.
  intros [es ->]. induction es as [|e es IH] using rev_ind.
  - apply init_invariant.
  - rewrite run_snoc. by apply step_invariant.
Qed.

(** ** Clicking vertices *)

Lemma insert_last {A} (l : list A) (x : A) :
  l ≠ [] → <[length l - 1 := x]> l = removelast l ++ [x].
Proof.
  intros Hne. destruct (exists_last Hne) as (l' & y & ->).
  rewrite removelast_last, length_app. simpl.
  replace (length l' + 1 - 1) with (length l' + 0) by lia.
  by rewrite insert_app_r.
Qed.

Lemma leftClick_pts (pos : Cartesian3) (s : State) :
  pts (leftClick (Some pos) s) = removelast (pts s) ++ [pos; pos]
  ∧ measuredLines (leftClick (Some pos) s) = measuredLines s.
Proof.
  unfold leftClick. case_decide as Hlen.
  - destruct_state s. unfold_ops. by destruct buf.
  - assert (pts s ≠ []) as Hne by (by destruct (pts s)).
    pose proof (insert_last (pts s) pos Hne) as Hins.
    destruct_state s. unfold_ops. simpl in *.
    destruct buf as [|p buf]; [done|].
    simpl in Hins. simpl. rewrite Hins. by rewrite <- app_assoc.
Qed.

Lemma mouseMove_pts (pos : Cartesian3) (s : State) :
  floatPt s ≠ None → pts s ≠ [] →
  pts (mouseMove (Some pos) s) = removelast (pts s) ++ [pos].
Proof.
  intros Hfp Hne. pose proof (insert_last (pts s) pos Hne) as Hins.
  unfold mouseMove. destruct_state s. unfold_ops. simpl in *.
  destruct fp as [fp|]; [|done]. destruct buf as [|p buf]; [done|].
  simpl in Hins. by destruct lbl.
Qed.

Lemma last_cons_default {A} (p f : A) (ps : list A) :
  List.last (p :: ps) f = List.last ps p.
Proof.
  revert p f. induction ps as [|q ps IH]; intros p f; [done|].
  change (List.last (p :: q :: ps) f) with (List.last (q :: ps) f).
  by rewrite !IH.
Qed.

Lemma clicks_pts (ps q : list Cartesian3) (f : Cartesian3) (s : State) :
  handler s = true →
  pts s = q ++ [f] →
  pts (run (clicks ps) s) = q ++ ps ++ [List.last ps f]
  ∧ handler (run (clicks ps) s) = true
  ∧ measuredLines (run (clicks ps) s) = measuredLines s.
Proof.
  revert q f s. induction ps as [|p ps IH]; intros q f s Hon Hpts; [done|].
  unfold clicks. cbn [map]. rewrite run_cons. fold (clicks ps).
  rewrite (step_LeftClick _ s Hon).
  destruct (leftClick_pts p s) as (Hpts' & Hlines).
  destruct (leftClick_frame (Some p) s) as (_ & Hon' & _).
  rewrite Hpts, removelast_last in Hpts'.
  destruct (IH (q ++ [p]) p (leftClick (Some p) s)) as (-> & -> & ->).
  - congruence.
  - by rewrite Hpts', <- app_assoc.
  - rewrite last_cons_default, <- app_assoc. by rewrite Hlines.
Qed.

Lemma first_click_pts (p : Cartesian3) (ps : list Cartesian3) :
  let s := run (StartButton :: clicks (p :: ps)) init in
  pts s = p :: ps ++ [List.last ps p]
  ∧ handler s = true
  ∧ measuredLines s = [].
Proof.
  unfold clicks. cbn [map]. rewrite !run_cons. fold (clicks ps).
  apply (clicks_pts ps [p] p); by vm_compute.
Qed.

(** C1.  What the code does with N primary clicks followed by a
    double-click: the finalized polyline holds the N clicked positions
    and, after them, the floating point (a duplicate of the last clicked
    position), so it has N + 1 vertices, not N. *)
Theorem finalized_line_keeps_floating_point
  (p : Cartesian3) (ps : list Cartesian3) :
  finalized_shapes
    (run (StartButton :: clicks (p :: ps) ++ [LeftDoubleClick]) init)
  = [Some (p :: ps ++ [List.last ps p])]
  ∧ length (p :: ps ++ [List.last ps p]) = S (length (p :: ps)).
Proof.
  split; [|simpl; rewrite length_app; simpl; lia].
  rewrite app_comm_cons, run_snoc.
  destruct (first_click_pts p ps) as (Hpts & Hon & Hlines).
  set (s := run (StartButton :: clicks (p :: ps)) init) in *.
  rewrite (step_LeftDoubleClick s Hon).
  destruct (doubleClick_cases s) as [[Hlt _]|[_ ->]].
  { rewrite Hpts in Hlt. simpl in Hlt. rewrite length_app in Hlt.
    simpl in Hlt. lia. }
  destruct (finalizeLine_result s) as (Hl & Ho & _).
  unfold finalized_shapes, fixed_positions. rewrite Hl, Ho, Hlines. simpl.
  rewrite lookup_app_r by lia. rewrite Nat.sub_diag. simpl.
  by rewrite Hpts.
Qed.

(** ** Stopping *)

Lemma stopDrawing_idle (s : State) :
  invariant s → isDrawing s = false → stopDrawing s = s.
Proof.
  intros (Hh & Hk & _ & Hidle) Hoff.
  destruct (Hidle Hoff) as (Hl & Hm & Hp & Hn & Hi).
  unfold stopDrawing. rewrite remove_all.
  destruct_state s. simpl in *. subst. reflexivity.
Qed.

(** C2.  What the code does when stop() is called in the middle of a
    drawing: after Start and one click the collection holds the floating
    marker (0), the preview polyline (1) and the live label (2); stop()
    removes the marker and the label, and the preview polyline stays a
    member of the entity collection. *)
Theorem stop_leaves_preview_line (a : Cartesian3) :
  let s := run [StartButton; LeftClick (Some a)] init in
  floatPt s = Some 0
  ∧ lineEnt s = Some 1
  ∧ dynamicLabel s = Some 2
  ∧ objects s !! 1 = Some (PolylineEntity DynamicLine YELLOW true)
  ∧ entities s = [0; 1; 2]
  ∧ entities (step ApiStop s) = [1]
  ∧ lineEnt (step ApiStop s) = Some 1.
Proof. by vm_compute. Qed.

(** ** Double-click *)

(** C3, as stated, fails after a single click: one vertex is committed,
    the buffer holds it and the floating point, and the double-click
    finalizes a polyline made of that position twice. *)
Lemma one_committed_vertex_is_finalized :
  let a := mkCartesian3 1 2 3 in
  let s := run [StartButton; LeftClick (Some a)] init in
  reachable s
  ∧ isDrawing s = true
  ∧ committed s = [a]
  ∧ step LeftDoubleClick s ≠ s
  ∧ pts (step LeftDoubleClick s) = []
  ∧ finalized_shapes (step LeftDoubleClick s) = [Some [a; a]].
Proof.
  intros a s. split_and!.
  - by exists [StartButton; LeftClick (Some a)].
  - by vm_compute.
  - by vm_compute.
  - intros Heq. apply (f_equal pts) in Heq. vm_compute in Heq. discriminate.
  - by vm_compute.
  - by vm_compute.
Qed.

(** C3, amended.  While the tool draws, a double-click finalizes the
    line exactly when the buffer holds at least two elements, the
    floating point counted, that is as soon as one vertex is committed;
    with fewer elements it changes nothing. *)
Theorem double_click_finalizes_iff_two_buffered (s : State) :
  handler s = true →
  (measuredLines (step LeftDoubleClick s) ≠ measuredLines s
   ↔ 2 ≤ length (pts s))
  ∧ (2 ≤ length (pts s) ↔ 1 ≤ length (committed s))
  ∧ (2 ≤ length (pts s) → step LeftDoubleClick s = finalizeLine s)
  ∧ (length (pts s) < 2 → step LeftDoubleClick s = s).
Proof.
  intros Hon. rewrite (step_LeftDoubleClick s Hon).
  assert (length (committed s) = length (pts s) - 1) as Hc.
  { unfold committed. destruct (pts s) as [|p l] eqn:Hp; [done|].
    destruct (exists_last (l:=p :: l)) as (l' & y & ->); [done|].
    rewrite removelast_last, length_app. simpl. lia. }
  destruct (doubleClick_cases s) as [[Hlt ->]|[Hge ->]].
  - split_and!; try done; try lia. split; [done | lia].
  - destruct (finalizeLine_result s) as (-> & _ & _).
    split_and!; try done; try lia. split; [done|]. intros _ Heq.
    apply (f_equal length) in Heq. rewrite length_app in Heq. simpl in Heq. lia.
Qed.

Lemma double_click_finalizes_iff_two_buffered_witness :
  let a := mkCartesian3 1 2 3 in
  let s := run [StartButton; LeftClick (Some a)] init in
  handler s = true
  ∧ (measuredLines (step LeftDoubleClick s) ≠ measuredLines s
     ↔ 2 ≤ length (pts s)).
Proof.
  split; [reflexivity|].
  apply (double_click_finalizes_iff_two_buffered
           (run [StartButton; LeftClick (Some (mkCartesian3 1 2 3))] init)).
  reflexivity.
Defined.

(** ** Escape and unresolved picks *)

(** C4.  Escape while drawing with an empty buffer leaves the whole state
    of the tool as it is: buffer, variables, entity objects and the
    members of the collection. *)
Theorem escape_on_empty_buffer (s : State) :
  isDrawing s = true → pts s = [] →
  step (KeyDown "Escape") s = s ∧ escHandler "Escape" s = s.
Proof.
  intros Hon Hpts.
  assert (escHandler "Escape" s = s) as Hesc.
  { unfold escHandler. rewrite Hon, Hpts. reflexivity. }
  split; [|done]. unfold step. rewrite Hesc. by destruct (keydownListener s).
Qed.

Lemma escape_on_empty_buffer_witness :
  let s := run [StartButton] init in
  isDrawing s = true ∧ pts s = [] ∧ step (KeyDown "Escape") s = s.
Proof.
  split; [reflexivity|]. split; [reflexivity|].
  apply (escape_on_empty_buffer (run [StartButton] init)); reflexivity.
Defined.

Lemma unresolved_pick_frame (s : State) :
  leftClick None s = s ∧ mouseMove None s = s.
Proof. split; [done|]. unfold mouseMove. by destruct (floatPt s). Qed.

(** C5.  A click or a pointer move whose position does not resolve to a
    world position leaves the state of the tool as it is, in every
    state. *)
Theorem unresolved_pick_is_ignored (s : State) :
  leftClick None s = s
  ∧ mouseMove None s = s
  ∧ step (LeftClick None) s = s
  ∧ step (MouseMove None) s = s.
Proof.
  destruct (unresolved_pick_frame s) as (Hclick & Hmove).
  split_and!; try done; unfold step; rewrite ?Hmove; by destruct (handler s).
Qed.

(** ** The floating point *)

Lemma committed_length (s : State) :
  pts s ≠ [] → length (pts s) = S (length (committed s)).
Proof.
  intros Hne. unfold committed.
  destruct (exists_last Hne) as (l' & y & ->).
  rewrite removelast_last, length_app. simpl. lia.
Qed.

(** C6.  While the tool draws and the buffer is not empty, a pointer move
    never changes the length of the buffer and leaves the committed
    vertices alone; a move that resolves to [pos] overwrites the last
    element with [pos]; a click at [pos] is what turns the last element
    into a committed vertex, followed by a new floating point. *)
Theorem pointer_move_overwrites_floating_point (s : State) :
  reachable s → isDrawing s = true → pts s ≠ [] →
  (∀ pick, length (pts (step (MouseMove pick) s)) = length (pts s))
  ∧ (∀ pick, committed (step (MouseMove pick) s) = committed s)
  ∧ (∀ pos, pts (step (MouseMove (Some pos)) s) = committed s ++ [pos])
  ∧ (∀ pos, pts (step (LeftClick (Some pos)) s) = committed s ++ [pos; pos])
  ∧ (∀ pos, committed (step (LeftClick (Some pos)) s) = committed s ++ [pos]).
Proof.
  intros Hreach Hon Hne.
  destruct (reachable_invariant s Hreach) as (Hh & _ & Hf & _).
  assert (handler s = true) as Hhon by congruence.
  specialize (Hf Hne).
  assert (∀ pos, pts (step (MouseMove (Some pos)) s) = committed s ++ [pos])
    as Hmove.
  { intros pos. rewrite (step_MouseMove _ s Hhon). by apply mouseMove_pts. }
  assert (∀ pos, pts (step (LeftClick (Some pos)) s) = committed s ++ [pos; pos])
    as Hclick.
  { intros pos. rewrite (step_LeftClick _ s Hhon). apply leftClick_pts. }
  split_and!; try done.
  - intros pick. rewrite (step_MouseMove _ s Hhon). apply mouseMove_frame.
  - intros [pos|].
    + unfold committed at 1. by rewrite Hmove, removelast_last.
    + rewrite (step_MouseMove _ s Hhon).
      by destruct (unresolved_pick_frame s) as (_ & ->).
  - intros pos. unfold committed at 1. rewrite Hclick.
    change [pos; pos] with ([pos] ++ [pos]).
    by rewrite app_assoc, removelast_last.
Qed.

Lemma pointer_move_overwrites_floating_point_witness :
  let a := mkCartesian3 1 2 3 in
  let b := mkCartesian3 4 5 6 in
  let s := run [StartButton; LeftClick (Some a)] init in
  reachable s ∧ isDrawing s = true ∧ pts s ≠ []
  ∧ pts (step (MouseMove (Some b)) s) = committed s ++ [b].
Proof.
  split; [by eexists|]. split; [reflexivity|]. split; [by vm_compute|].
  apply (pointer_move_overwrites_floating_point
           (run [StartButton; LeftClick (Some (mkCartesian3 1 2 3))] init));
    [by eexists | reflexivity | by vm_compute].
Defined.

End MeasureDistanceFacts.

(** * Properties of the measure-height tool *)

Module MeasureHeightFacts.
Import Cesium MeasureHeight.

Ltac unfold_ops :=
  cbv beta iota zeta delta
    [finalizeHeight startDrawing stopDrawing clearAll leftClick
     entities_add entities_remove computeMetrics
     set_isDrawing set_handler set_pts set_tempMarkerEnts set_lineEnts
     set_labelEnts set_measuredLines set_measuredLabels set_objects
     set_entities set_startIcon set_resultText
     isDrawing handler pts tempMarkerEnts diagEnt horizEnt vertEnt
     labelDiag labelHoriz labelVert measuredLines measuredLabels objects
     entities startIcon resultText
     horizontal heightDiff diagonal proj].

Ltac destruct_state s :=
  destruct s as [drawing hdl buf temps dg hz vt ldg lhz lvt mlines mlabels
                 objs ents icon txt].

Lemma remove_each_entities (l : list EntityId) (s : State) :
  remove_each l s
  = set_entities (foldl (λ es m, filter (λ i, i ≠ m) es) (entities s) l) s.
Proof.
  unfold remove_each. revert s. induction l as [|m l IH]; intros s; simpl.
  - by destruct s.
  - rewrite IH. reflexivity.
Qed.

Section Ellipsoid.

Variable fromCartesian : Cartesian3 → Cartographic.
Variable fromRadians : float → float → float → Cartesian3.

Local Abbreviation computeMetrics := (computeMetrics fromCartesian fromRadians).
Local Abbreviation finalizeHeight := (finalizeHeight fromCartesian fromRadians).
Local Abbreviation leftClick := (leftClick fromCartesian fromRadians).
Local Abbreviation step := (step fromCartesian fromRadians).
Local Abbreviation run := (run fromCartesian fromRadians).
Local Abbreviation reachable := (reachable fromCartesian fromRadians).

Lemma height_run_snoc (es : list Event) (e : Event) (s : State) :
  run (es ++ [e]) s = step e (run es s).
Proof. unfold MeasureHeight.run. by rewrite foldl_app. Qed.

Lemma height_stopDrawing_fields (s : State) :
  isDrawing (stopDrawing s) = false
  ∧ handler (stopDrawing s) = false
  ∧ pts (stopDrawing s) = []
  ∧ tempMarkerEnts (stopDrawing s) = []
  ∧ measuredLines (stopDrawing s) = measuredLines s
  ∧ measuredLabels (stopDrawing s) = measuredLabels s.
Proof.
  unfold stopDrawing. rewrite remove_each_entities.
  destruct_state s. by unfold_ops.
Qed.

Lemma clearAll_fields (s : State) :
  isDrawing (clearAll s) = false
  ∧ handler (clearAll s) = false
  ∧ pts (clearAll s) = []
  ∧ tempMarkerEnts (clearAll s) = []
  ∧ measuredLines (clearAll s) = []
  ∧ measuredLabels (clearAll s) = [].
Proof.
  unfold clearAll.
  destruct (height_stopDrawing_fields s) as (Hd & Hh & Hp & Ht & _).
  rewrite !remove_each_entities.
  destruct (stopDrawing s) as [drawing hdl buf temps dg hz vt ldg lhz lvt
                               mlines mlabels objs ents icon txt].
  simpl in *. subst. by unfold_ops.
Qed.

Lemma first_click (position : Cartesian2) (scene : Scene)
      (pos : Cartesian3) (s : State) :
  pickWorldPosition (Some position) scene = Some pos →
  pts s = [] →
  let s' := leftClick position scene s in
  pts s' = [pos]
  ∧ tempMarkerEnts s' = tempMarkerEnts s ++ [length (objects s)]
  ∧ objects s' = objects s ++ [PointEntity pos]
  ∧ entities s' = entities s ++ [length (objects s)]
  ∧ measuredLines s' = measuredLines s
  ∧ measuredLabels s' = measuredLabels s
  ∧ isDrawing s' = isDrawing s
  ∧ handler s' = handler s.
Proof.
  intros Hpick Hpts. unfold MeasureHeight.leftClick. rewrite Hpick.
  destruct_state s. simpl in Hpts. subst buf. by unfold_ops.
Qed.

Lemma second_click (position : Cartesian2) (scene : Scene)
      (p1 p2 : Cartesian3) (s : State) :
  pickWorldPosition (Some position) scene = Some p2 →
  pts s = [p1] →
  let s' := leftClick position scene s in
  let m := computeMetrics p1 p2 in
  let n := S (length (objects s)) in
  pts s' = []
  ∧ tempMarkerEnts s' = []
  ∧ measuredLines s' = measuredLines s ++ [n; S n; S (S n)]
  ∧ measuredLabels s'
    = measuredLabels s ++ [S (S (S n)); S (S (S (S n))); S (S (S (S (S n))))]
  ∧ objects s'
    = objects s ++ [PointEntity p2;
                    PolylineEntity [p1; p2] RED;
                    PolylineEntity [p1; proj m] BLUE;
                    PolylineEntity [proj m; p2] GREEN;
                    LabelEntity (midpoint p1 p2) (diagonal m);
                    LabelEntity (midpoint p1 (proj m)) (horizontal m);
                    LabelEntity (midpoint (proj m) p2) (heightDiff m)]
  ∧ isDrawing s' = isDrawing s
  ∧ handler s' = handler s.
Proof.
  intros Hpick Hpts. unfold MeasureHeight.leftClick. rewrite Hpick.
  destruct_state s. simpl in Hpts. subst buf. unfold_ops. simpl.
  rewrite remove_each_entities. unfold_ops.
  rewrite !length_app. simpl. rewrite <- !app_assoc. simpl.
  rewrite !Nat.add_1_r. done.
Qed.

Lemma height_step_LeftClick (position : Cartesian2) (scene : Scene) (s : State) :
  handler s = true →
  step (LeftClick position scene) s = leftClick position scene s.
Proof. intros Hon. unfold MeasureHeight.step. by rewrite Hon. Qed.

Lemma leftClick_unresolved (position : Cartesian2) (scene : Scene)
      (s : State) :
  pickWorldPosition (Some position) scene = None →
  leftClick position scene s = s.
Proof. intros Hpick. unfold MeasureHeight.leftClick. by rewrite Hpick. Qed.

Lemma height_startDrawing_invariant (s : State) : invariant (startDrawing s).
Proof. split; simpl; [lia | done]. Qed.

Lemma height_stopDrawing_invariant (s : State) : invariant (stopDrawing s).
Proof.
  destruct (height_stopDrawing_fields s) as (Hd & Hh & Hp & _).
  unfold invariant. rewrite Hd, Hh, Hp. split; simpl; [lia | done].
Qed.

Lemma clearAll_invariant (s : State) : invariant (clearAll s).
Proof.
  destruct (clearAll_fields s) as (Hd & Hh & Hp & _).
  unfold invariant. rewrite Hd, Hh, Hp. split; simpl; [lia | done].
Qed.

Lemma leftClick_invariant (position : Cartesian2) (scene : Scene)
      (s : State) :
  invariant s → invariant (leftClick position scene s).
Proof.
  intros [Hlen Hh].
  destruct (pickWorldPosition (Some position) scene) as [pos|] eqn:Hpick;
    [|by rewrite leftClick_unresolved].
  destruct (pts s) as [|p1 [|p2 rest]] eqn:Hpts; [| |simpl in Hlen; lia].
  - destruct (first_click position scene pos s Hpick Hpts)
      as (Hp & _ & _ & _ & _ & _ & Hd & Hh').
    unfold invariant. rewrite Hp, Hd, Hh'. split; simpl; [lia | done].
  - destruct (second_click position scene p1 pos s Hpick Hpts)
      as (Hp & _ & _ & _ & _ & Hd & Hh').
    unfold invariant. rewrite Hp, Hd, Hh'. split; simpl; [lia | done].
Qed.

Lemma height_step_invariant (e : Event) (s : State) :
  invariant s → invariant (step e s).
Proof.
  intros Hinv. destruct e as [| | |displayBlock|position scene];
    unfold MeasureHeight.step.
  - destruct (isDrawing s);
      auto using height_stopDrawing_invariant, height_startDrawing_invariant.
  - apply clearAll_invariant.
  - apply height_stopDrawing_invariant.
  - destruct (negb displayBlock && isDrawing s);
      [apply height_stopDrawing_invariant | exact Hinv].
  - destruct (handler s); [by apply leftClick_invariant | exact Hinv].
Qed.

Lemma height_reachable_invariant (s : State) : reachable s → invariant s.
Proof.
  intros [es ->]. induction es as [|e es IH] using rev_ind.
  - split; simpl; [lia | done].
  - rewrite height_run_snoc. by apply height_step_invariant.
Qed.

(** C8.  For any two points the vertical measurement is the absolute
    difference of their heights, the horizontal one the distance from
    the first point to the second projected onto the first point's
    height, and the diagonal one the direct distance between the two
    points. *)
Theorem computeMetrics_measurements (p1 p2 : Cartesian3) :
  let m := computeMetrics p1 p2 in
  heightDiff m = vertical_delta fromCartesian p1 p2
  ∧ proj m = project_onto_height_of fromCartesian fromRadians p1 p2
  ∧ horizontal m
    = distance p1 (project_onto_height_of fromCartesian fromRadians p1 p2)
  ∧ diagonal m = distance p1 p2.
Proof. done. Qed.

(** C10.  The tool finalizes on the second resolved click, without any
    double-click: between two events the buffer holds at most one point
    (two only inside the click action that finalizes); a click on an
    empty buffer starts a measurement; a click on a buffer of one point
    creates the three lines and the three labels of the measurement
    and leaves the buffer empty. *)
Theorem second_point_finalizes (s : State) :
  reachable s →
  length (pts s) ≤ 1
  ∧ ∀ position scene pos,
      isDrawing s = true →
      pickWorldPosition (Some position) scene = Some pos →
      let s' := step (LeftClick position scene) s in
      (pts s = [] →
       pts s' = [pos]
       ∧ measuredLines s' = measuredLines s
       ∧ measuredLabels s' = measuredLabels s)
      ∧ (∀ p1, pts s = [p1] →
         let m := computeMetrics p1 pos in
         let n := S (length (objects s)) in
         pts s' = []
         ∧ measuredLines s' = measuredLines s ++ [n; n + 1; n + 2]
         ∧ measuredLabels s' = measuredLabels s ++ [n + 3; n + 4; n + 5]
         ∧ line_positions s' <$> [n; n + 1; n + 2]
           = [Some [p1; pos]; Some [p1; proj m]; Some [proj m; pos]]
         ∧ label_metres s' <$> [n + 3; n + 4; n + 5]
           = [Some (diagonal m); Some (horizontal m); Some (heightDiff m)]).
Proof.
  intros Hreach. destruct (height_reachable_invariant s Hreach) as [Hlen Hh].
  split; [done|]. intros position scene pos Hon Hpick s'.
  assert (handler s = true) as Hhon by congruence.
  subst s'. rewrite (height_step_LeftClick _ _ s Hhon). split.
  - intros Hpts.
    by destruct (first_click position scene pos s Hpick Hpts)
      as (-> & _ & _ & _ & -> & -> & _).
  - intros p1 Hpts m n.
    destruct (second_click position scene p1 pos s Hpick Hpts)
      as (-> & _ & -> & -> & Hobjs & _).
    subst n. rewrite !Nat.add_succ_l.
    replace (length (objects s) + 1) with (S (length (objects s))) by lia.
    replace (length (objects s) + 2) with (S (S (length (objects s)))) by lia.
    replace (length (objects s) + 3) with (3 + length (objects s)) by lia.
    replace (length (objects s) + 4) with (4 + length (objects s)) by lia.
    replace (length (objects s) + 5) with (5 + length (objects s)) by lia.
    split_and!; try done.
    + unfold line_positions. simpl. rewrite Hobjs.
      rewrite !lookup_app_r by lia.
      replace (S (length (objects s)) - length (objects s)) with 1 by lia.
      replace (S (S (length (objects s))) - length (objects s)) with 2 by lia.
      replace (S (S (S (length (objects s)))) - length (objects s)) with 3 by lia.
      done.
    + unfold label_metres. simpl. rewrite Hobjs.
      rewrite !lookup_app_r by lia.
      replace (S (S (S (S (length (objects s))))) - length (objects s))
        with 4 by lia.
      replace (S (S (S (S (S (length (objects s)))))) - length (objects s))
        with 5 by lia.
      replace (S (S (S (S (S (S (length (objects s))))))) - length (objects s))
        with 6 by lia.
      done.
Qed.

End Ellipsoid.

Lemma second_point_finalizes_witness :
  let a := mkCartesian3 1 2 3 in
  let s := run planar_fromCartesian planar_fromRadians
               [StartButton; LeftClick (mkCartesian2 10 20) (scene_hitting a)]
               init in
  reachable planar_fromCartesian planar_fromRadians s
  ∧ length (pts s) ≤ 1.
Proof.
  split; [by eexists|].
  apply (second_point_finalizes planar_fromCartesian planar_fromRadians
           (run planar_fromCartesian planar_fromRadians
              [StartButton;
               LeftClick (mkCartesian2 10 20)
                         (scene_hitting (mkCartesian3 1 2 3))]
              init)).
  by eexists.
Defined.

End MeasureHeightFacts.

(** * Properties of the registry of terrain profiles *)

Module TerrainSectionFacts.
Import Cesium TerrainSection.

Ltac terrain_ops :=
  cbv beta iota zeta delta
    [createNewProfileId addProfileToDropdowns removeProfileFromDropdowns
     createProfileCanvas setActiveProfile entities_add entities_remove
     set_profileCounter set_profiles set_activeProfileId set_graphOptions
     set_deleteOptions set_controlsDisabled set_canvases set_tempEntities
     set_objects set_entities
     profileCounter profiles activeProfileId graphOptions deleteOptions
     controlsDisabled canvases tempEntities objects entities].

Ltac terrain_state s :=
  destruct s as [counter profs act gopts dopts dis cvs temps objs ents].

(** ** The counter and the ids *)

Lemma increment_below (n : N) : (n < 2 ^ 53)%N → increment n = (n + 1)%N.
Proof. intros Hn. unfold increment. by rewrite decide_True. Qed.

Lemma increment_mono (n : N) : (n ≤ increment n)%N.
Proof. unfold increment. case_decide; lia. Qed.

Lemma profile_id_inj (m n : N) :
  ("G" +:+ pretty m)%string = ("G" +:+ pretty n)%string → m = n.
Proof. intros Heq. injection Heq as Heq. by apply (inj pretty). Qed.

Lemma clear_temp_entities (s : State) :
  clearTempEntities s
  = set_tempEntities []
      (set_entities
         (foldl (λ es e, filter (λ i, i ≠ e) es) (entities s) (tempEntities s))
         s).
Proof.
  unfold clearTempEntities.
  assert (∀ l s, foldl (λ s e, entities_remove e s) s l
                 = set_entities (foldl (λ es e, filter (λ i, i ≠ e) es)
                                       (entities s) l) s) as Hfold.
  { clear s. induction l as [|e l IH]; intros s; simpl; [by destruct s|].
    rewrite IH. reflexivity. }
  rewrite Hfold. by destruct s.
Qed.

Lemma add_sample_points (positions : list Cartesian3) (s : State) :
  foldl (λ s pos,
           let '(e, s) := entities_add (PointEntity pos) s in
           set_tempEntities (tempEntities s ++ [e]) s)
        s positions
  = set_tempEntities
      (tempEntities s ++ seq (length (objects s)) (length positions))
      (set_entities
         (entities s ++ seq (length (objects s)) (length positions))
         (set_objects (objects s ++ map PointEntity positions) s)).
Proof.
  revert s. induction positions as [|pos positions IH]; intros s.
  - terrain_state s. terrain_ops. simpl. by rewrite !app_nil_r.
  - cbn [foldl]. rewrite IH. terrain_state s. terrain_ops.
    rewrite length_app. cbn [length map seq]. rewrite Nat.add_1_r.
    by rewrite <- !app_assoc.
Qed.

Section Ellipsoid.

Variable fromRadians : float → float → float → Cartesian3.
Variable cartesianToCartographic : Cartesian3 → Cartographic.

Local Abbreviation generateTerrainProfile :=
  (generateTerrainProfile fromRadians cartesianToCartographic).
Local Abbreviation step := (step fromRadians cartesianToCartographic).
Local Abbreviation run := (run fromRadians cartesianToCartographic).
Local Abbreviation created := (created fromRadians cartesianToCartographic).
Local Abbreviation reachable := (reachable fromRadians cartesianToCartographic).

Lemma terrain_run_snoc (es : list Event) (e : Event) (s : State) :
  run (es ++ [e]) s = step e (run es s).
Proof. unfold TerrainSection.run. by rewrite foldl_app. Qed.

Lemma terrain_run_app (es1 es2 : list Event) (s : State) :
  run (es1 ++ es2) s = run es2 (run es1 s).
Proof. unfold TerrainSection.run. by rewrite foldl_app. Qed.

Lemma created_app (es1 es2 : list Event) (s : State) :
  created (es1 ++ es2) s = created es1 s ++ created es2 (run es1 s).
Proof.
  revert s. induction es1 as [|e es1 IH]; intros s; [done|].
  cbn [app TerrainSection.created]. rewrite IH. by rewrite <- app_assoc.
Qed.

(** What a generation with at least one sample leaves behind. *)
Lemma generation_registers (updated : list Cartographic) (s : State) :
  updated ≠ [] →
  let new_id := ("G" +:+ pretty (increment (profileCounter s)))%string in
  let s' := step (TerrainSampled updated) s in
  profileCounter s' = increment (profileCounter s)
  ∧ (∃ p, profiles s' = profiles s ++ [p] ∧ id p = new_id
          ∧ polylineEntity p = length (objects s) + length updated
          ∧ heights p = map height updated)
  ∧ graphOptions s' = graphOptions s ++ [new_id]
  ∧ deleteOptions s' = deleteOptions s ++ [new_id]
  ∧ controlsDisabled s' = false
  ∧ activeProfileId s' = Some new_id
  ∧ tempEntities s' = [].
Proof.
  intros Hne new_id s'. subst s' new_id.
  unfold TerrainSection.step, TerrainSection.generateTerrainProfile.
  rewrite add_sample_points.
  destruct updated as [|carto updated]; [done|]. cbn [map].
  terrain_state s. terrain_ops. rewrite clear_temp_entities. terrain_ops.
  split_and!; try done.
  eexists. split; [done|]. split_and!; try done.
  cbn [polylineEntity]. rewrite length_app. cbn [length].
  by rewrite !length_map.
Qed.

(** What a generation without any sample leaves behind. *)
Lemma generation_without_samples (s : State) :
  let s' := step (TerrainSampled []) s in
  profileCounter s' = increment (profileCounter s)
  ∧ profiles s' = profiles s
  ∧ graphOptions s' = graphOptions s
  ∧ deleteOptions s' = deleteOptions s
  ∧ controlsDisabled s' = controlsDisabled s
  ∧ activeProfileId s' = activeProfileId s
  ∧ objects s' = objects s ++ [PolylineEntity []]
  ∧ entities s' = entities s ++ [length (objects s)].
Proof.
  unfold TerrainSection.step, TerrainSection.generateTerrainProfile.
  terrain_state s. by terrain_ops.
Qed.

(** What the deletion of a registered profile leaves behind. *)
Lemma deleteClick_found (value : string) (s : State) (index : nat)
      (profile : Profile) :
  value ≠ ""%string →
  list_find (λ p, id p = value) (profiles s) = Some (index, profile) →
  let s' := deleteClick value s in
  profileCounter s' = profileCounter s
  ∧ profiles s' = delete index (profiles s)
  ∧ graphOptions s' = filter (λ o, o ≠ value) (graphOptions s)
  ∧ deleteOptions s' = filter (λ o, o ≠ value) (deleteOptions s)
  ∧ controlsDisabled s'
    = (if decide (length (filter (λ o, o ≠ value) (graphOptions s)) = 0)
       then true else controlsDisabled s)
  ∧ activeProfileId s' = id <$> head (delete index (profiles s))
  ∧ objects s' = objects s
  ∧ entities s'
    = filter (λ e, is_label_with (objects s) value e = false)
             (filter (λ e, e ≠ polylineEntity profile) (entities s))
  ∧ tempEntities s' = tempEntities s.
Proof.
  intros Hvalue Hfind s'. subst s'. unfold deleteClick.
  rewrite decide_False by done. rewrite Hfind.
  terrain_state s. terrain_ops. cbn [profiles] in *.
  case_decide; destruct (delete index profs); by terrain_ops.
Qed.

Lemma deleteClick_not_found (value : string) (s : State) :
  value = ""%string ∨ list_find (λ p, id p = value) (profiles s) = None →
  deleteClick value s = s.
Proof.
  unfold deleteClick. intros [-> | Hfind]; [done|].
  case_decide; [done|]. by rewrite Hfind.
Qed.

Lemma deleteClick_registry (value : string) (s : State) :
  profileCounter (deleteClick value s) = profileCounter s
  ∧ length (profiles (deleteClick value s)) ≤ length (profiles s).
Proof.
  destruct (decide (value = ""%string)) as [Hv|Hv];
    [by rewrite deleteClick_not_found by auto|].
  destruct (list_find (λ p, id p = value) (profiles s))
    as [[index profile]|] eqn:Hfind;
    [|by rewrite deleteClick_not_found by auto].
  destruct (deleteClick_found value s index profile Hv Hfind) as (-> & -> & _).
  split; [done|]. apply list_find_Some in Hfind as (Hlook & _).
  rewrite length_delete by eauto. lia.
Qed.

Lemma graphSelectChange_registry (value : string) (s : State) :
  profileCounter (graphSelectChange value s) = profileCounter s
  ∧ profiles (graphSelectChange value s) = profiles s.
Proof. unfold graphSelectChange. case_decide; [done|]. by terrain_state s. Qed.

(** The ids an event registers, and what it does to the counter. *)
Lemma created_by_event (e : Event) (es : list Event) (s : State) :
  samples_present e →
  (profileCounter s < 2 ^ 53)%N →
  (created (e :: es) s = created es (step e s)
   ∧ profileCounter (step e s) = profileCounter s)
  ∨ (created (e :: es) s
     = ("G" +:+ pretty (profileCounter s + 1)%N)%string :: created es (step e s)
     ∧ profileCounter (step e s) = (profileCounter s + 1)%N).
Proof.
  intros He Hc. cbn [TerrainSection.created].
  destruct e as [updated|value|value].
  - right. destruct (generation_registers updated s He)
      as (Hcount & (p & Hprofs & Hid & _) & _).
    rewrite (increment_below _ Hc) in Hcount, Hid.
    rewrite Hprofs, Hcount, length_app, last_snoc. unfold from_option.
    rewrite Hid. rewrite decide_True by (simpl; lia). done.
  - left. destruct (deleteClick_registry value s) as (Hcount & Hlen).
    cbn [TerrainSection.step]. rewrite Hcount.
    rewrite decide_False by lia. done.
  - left. destruct (graphSelectChange_registry value s) as (Hcount & Hprofs).
    cbn [TerrainSection.step]. rewrite Hcount, Hprofs.
    rewrite decide_False by lia. done.
Qed.

Lemma created_count_up (es : list Event) (s : State) :
  (profileCounter s + N.of_nat (length es) ≤ 2 ^ 53)%N →
  Forall samples_present es →
  created es s
  = (λ i, ("G" +:+ pretty (profileCounter s + N.of_nat i)%N)%string)
      <$> seq 1 (length (created es s))
  ∧ profileCounter (run es s)
    = (profileCounter s + N.of_nat (length (created es s)))%N.
Proof.
  revert s. induction es as [|e es IH]; intros s Hbound Hall.
  { split; [done|]. simpl. lia. }
  apply Forall_cons in Hall as [He Hall]. cbn [length] in Hbound.
  change (run (e :: es) s) with (run es (step e s)).
  destruct (created_by_event e es s He) as [[-> Hc]|[-> Hc]]; [lia| |].
  - rewrite <- Hc. apply IH; [rewrite Hc; lia | done].
  - destruct (IH (step e s)) as [Hids Hcount]; [rewrite Hc; lia | done |].
    rewrite Hcount, Hc. cbn [length]. split; [|lia].
    cbn [seq fmap list_fmap]. f_equal.
    rewrite <- fmap_S_seq, <- list_fmap_compose.
    rewrite Hids at 1.
    apply list_fmap_ext. intros _ i _. cbn. rewrite Hc.
    do 2 f_equal. lia.
Qed.

Lemma counted_ids_distinct (c : N) (n : nat) :
  NoDup ((λ i, ("G" +:+ pretty (c + N.of_nat i)%N)%string) <$> seq 1 n).
Proof.
  apply NoDup_fmap_2_strong; [|apply NoDup_seq].
  intros i j _ _ Heq. apply profile_id_inj in Heq. lia.
Qed.

(** C9.  In a session of generations (each with at least one sampled
    position), deletions and graph selections, shorter than the 2^53
    events up to which a JavaScript number counts exactly: the n-th profile
    registered gets the id "G" followed by n; the counter is the number of
    profiles registered so far, a deletion leaves it as it is and no event
    lowers it; the ids given out are pairwise distinct, and an id given
    out earlier in the session is never given out again later. *)
Theorem profile_ids_count_up (es : list Event) :
  (N.of_nat (length es) < 2 ^ 53)%N →
  Forall samples_present es →
  let ids := created es init in
  ids = nth_profile_id <$> seq 1 (length ids)
  ∧ profileCounter (run es init) = N.of_nat (length ids)
  ∧ (∀ value s, profileCounter (step (DeleteClick value) s) = profileCounter s)
  ∧ (∀ e s, (profileCounter s ≤ profileCounter (step e s))%N)
  ∧ NoDup ids
  ∧ (∀ es1 es2, es = es1 ++ es2 →
     ∀ i, i ∈ created es1 init → i ∉ created es2 (run es1 init)).
Proof.
  intros Hbound Hall ids.
  destruct (created_count_up es init) as [Hids Hcount]; [simpl; lia | done |].
  fold ids in Hids, Hcount.
  assert (NoDup ids) as Hnodup.
  { rewrite Hids. apply counted_ids_distinct. }
  split_and!; try done.
  - intros value s. apply deleteClick_registry.
  - intros [updated|value|value] s.
    + destruct updated as [|carto updated].
      * destruct (generation_without_samples s) as (-> & _).
        apply increment_mono.
      * destruct (generation_registers (carto :: updated) s) as (-> & _);
          [done|]. apply increment_mono.
    + cbn [TerrainSection.step].
      by destruct (deleteClick_registry value s) as (-> & _).
    + cbn [TerrainSection.step].
      by destruct (graphSelectChange_registry value s) as (-> & _).
  - intros es1 es2 -> i Hin1 Hin2. subst ids.
    rewrite created_app in Hnodup.
    apply NoDup_app in Hnodup as (_ & Hdisj & _). by apply (Hdisj i).
Qed.

End Ellipsoid.

Lemma profile_ids_count_up_witness :
  let g := TerrainSampled [mkCartographic 0.25 1 25] in
  let es := [g; g; DeleteClick "G1"; g] in
  created planar_fromRadians planar_cartesianToCartographic es init
  = ["G1"; "G2"; "G3"]%string
  ∧ NoDup (created planar_fromRadians planar_cartesianToCartographic es init).
Proof.
  split; [by vm_compute|].
  apply (profile_ids_count_up planar_fromRadians planar_cartesianToCartographic
           [TerrainSampled [mkCartographic 0.25 1 25];
            TerrainSampled [mkCartographic 0.25 1 25];
            DeleteClick "G1";
            TerrainSampled [mkCartographic 0.25 1 25]]).
  - reflexivity.
  - repeat constructor; done.
Defined.

End TerrainSectionFacts.
